(** * CodeGraphy, the Python example plugin (examples/python-plugin/src)

    A shallow embedding of the seven Python files of the example
    project, and the properties its description states about them.

    The project is a handful of small functions: a configuration loader
    that copies a module-level dict, a mock API client, two string
    formatters, a helper that upper-cases and joins a list, an entry
    point that prints the result, and a module nothing refers to.

    Layout: the part of the Python object model the code relies on
    (values, dict objects in a store, exceptions, the state-and-exception
    monad), then one module per source file, then the properties. *)

From Stdlib Require Import ZArith NArith String Ascii List.
From stdpp Require Import base option gmap strings list.
Import ListNotations.

Local Open Scope string_scope.
Local Open Scope Z_scope.

(** ** Values and objects *)

(** A dict is the one kind of object of this program that is held under a
    module-level name and handed out (through [copy]), so dict objects live
    in a store and a value refers to one by its location.  Lists of this
    program are built by a literal or a comprehension at each call and are
    never stored or updated in place; they and the scalars are carried as
    values. *)
Definition loc := positive.

#[warnings="-register-all"]
Inductive value : Type :=
| VNone
| VBool (b : bool)
| VInt (n : Z)
| VStr (s : string)
| VList (items : list value)
| VDict (l : loc).

(** The exceptions the operations below can raise.  [SystemError] is what
    a reference to no object would give; no store built by the
    program has one. *)
Inductive exn : Type :=
| KeyError (key : string)
| TypeError
| AttributeError
| NameError (name : string)
| SystemError.

Inductive result (A : Type) : Type :=
| Ok (a : A)
| Raise (e : exn).
Arguments Ok {A} a.
Arguments Raise {A} e.

(** A dict object with str keys, in insertion order (keys are unique). *)
Abbreviation dict := (list (string * value)).

Fixpoint dict_get (k : string) (d : dict) : option value :=
  match d with
  | [] => None
  | (k', v) :: d' => if String.eqb k k' then Some v else dict_get k d'
  end.

(** [d[k] = v]: an existing key keeps its place, a new one goes last. *)
Fixpoint dict_set (k : string) (v : value) (d : dict) : dict :=
  match d with
  | [] => [(k, v)]
  | (k', v') :: d' =>
      if String.eqb k k' then (k, v) :: d' else (k', v') :: dict_set k v d'
  end.

Fixpoint dict_del (k : string) (d : dict) : dict :=
  match d with
  | [] => []
  | (k', v') :: d' =>
      if String.eqb k k' then d' else (k', v') :: dict_del k d'
  end.

(** A dict display [{k1: v1, ..., kn: vn}] stores the items left to right. *)
Definition dict_display (items : list (string * value)) : dict :=
  fold_left (fun d kv => dict_set (fst kv) (snd kv) d) items [].

Definition dict_keys (d : dict) : list string := map fst d.

(** ** The store *)

Record store : Type := mkStore {
  heap : gmap loc dict;          (* the dict objects *)
  globals : gmap string value;   (* module-level names, qualified *)
  stdout : string                (* what has been written to standard output *)
}.

Definition empty_store : store :=
  {| heap := ∅; globals := ∅; stdout := "" |}.

Definition set_heap (h : gmap loc dict) (σ : store) : store :=
  {| heap := h; globals := globals σ; stdout := stdout σ |}.

Definition set_globals (g : gmap string value) (σ : store) : store :=
  {| heap := heap σ; globals := g; stdout := stdout σ |}.

Definition set_stdout (out : string) (σ : store) : store :=
  {| heap := heap σ; globals := globals σ; stdout := out |}.

(** ** The monad of Python code: a store is threaded, an exception stops
    the rest and keeps the store as it is at the raise *)

Definition M (A : Type) : Type := store -> result A * store.

Definition ret {A} (a : A) : M A := fun σ => (Ok a, σ).

Definition raise {A} (e : exn) : M A := fun σ => (Raise e, σ).

Definition bind {A B} (k : A -> M B) (m : M A) : M B :=
  fun σ =>
    match m σ with
    | (Ok a, σ') => k a σ'
    | (Raise e, σ') => (Raise e, σ')
    end.

(** The notations [x ← m; k] and [m ;; k] of stdpp's monads. *)
#[global] Instance M_ret : MRet M := @ret.
#[global] Instance M_bind : MBind M := @bind.

Definition get_store : M store := fun σ => (Ok σ, σ).

Definition put_store (σ' : store) : M unit := fun _ => (Ok tt, σ').

(** ** Operations of the object model *)

(** A new dict object, at a location the heap does not use. *)
Definition new_dict (d : dict) : M value :=
  σ ← get_store;
  let l := fresh (dom (heap σ)) in
  put_store (set_heap (<[l := d]> (heap σ)) σ) ;;
  ret (VDict l).

Definition read_dict (l : loc) : M dict :=
  σ ← get_store;
  match heap σ !! l with
  | Some d => ret d
  | None => raise SystemError
  end.

Definition write_dict (l : loc) (d : dict) : M unit :=
  σ ← get_store;
  put_store (set_heap (<[l := d]> (heap σ)) σ).

(** Module-level names. *)
Definition load_global (name : string) : M value :=
  σ ← get_store;
  match globals σ !! name with
  | Some v => ret v
  | None => raise (NameError name)
  end.

Definition store_global (name : string) (v : value) : M unit :=
  σ ← get_store;
  put_store (set_globals (<[name := v]> (globals σ)) σ).

(** Truth value testing, as [not data] and [if data] use it. *)
Definition truthy (v : value) : M bool :=
  match v with
  | VNone => ret false
  | VBool b => ret b
  | VInt n => ret (negb (n =? 0))
  | VStr s => ret (negb (String.eqb s ""))
  | VList items => ret (match items with [] => false | _ => true end)
  | VDict l => d ← read_dict l; ret (match d with [] => false | _ => true end)
  end.

(** The characters of a str, each as a str of length one. *)
Fixpoint chars (s : string) : list string :=
  match s with
  | EmptyString => []
  | String c s' => String c EmptyString :: chars s'
  end.

(** [for item in v]: the items a comprehension or a loop goes through. *)
Definition iterate (v : value) : M (list value) :=
  match v with
  | VList items => ret items
  | VStr s => ret (map VStr (chars s))
  | VDict l => d ← read_dict l; ret (map VStr (dict_keys d))
  | VNone | VBool _ | VInt _ => raise TypeError
  end.

(** [[f(item) for item in items]], left to right; the first exception
    ends it. *)
Fixpoint comprehension {A} (f : value -> M A) (items : list value) : M (list A) :=
  match items with
  | [] => ret []
  | item :: rest =>
      y ← f item;
      ys ← comprehension f rest;
      ret (y :: ys)
  end.

(** [sep.join(items)]: every item has to be a str. *)
Fixpoint strs_of (items : list value) : option (list string) :=
  match items with
  | [] => Some []
  | VStr s :: rest =>
      match strs_of rest with
      | Some ss => Some (s :: ss)
      | None => None
      end
  | _ :: _ => None
  end.

Definition str_join (sep : string) (items : list value) : M string :=
  match strs_of items with
  | Some ss => ret (String.concat sep ss)
  | None => raise TypeError
  end.

(** [v[k]] for a str key [k]: only a dict can be subscripted by a str. *)
Definition getitem (v : value) (k : string) : M value :=
  match v with
  | VDict l =>
      d ← read_dict l;
      match dict_get k d with
      | Some x => ret x
      | None => raise (KeyError k)
      end
  | _ => raise TypeError
  end.

(** [v.copy()]: a dict gives a new dict object with the same items (the
    items themselves are shared); a list gives a list with the same items;
    the other values have no such method. *)
Definition call_copy (v : value) : M value :=
  match v with
  | VDict l => d ← read_dict l; new_dict d
  | VList items => ret (VList items)
  | _ => raise AttributeError
  end.

(** [print(text)] writes the text and a line feed. *)
Definition newline : string := String (ascii_of_N 10) EmptyString.

Definition print (text : string) : M unit :=
  σ ← get_store;
  put_store (set_stdout (stdout σ ++ text ++ newline) σ).

(** ** str.upper

    [str.upper] is a built-in of the language and not code of this
    project; the definitions below take it as a parameter [upper].  What
    the proofs know about it is its value on ASCII text, where it maps
    [a]..[z] to [A]..[Z] and leaves every other character alone;
    [ascii_upper] is that function. *)
Definition ascii_upper_char (c : ascii) : ascii :=
  let n := N_of_ascii c in
  if ((97 <=? n) && (n <=? 122))%N then ascii_of_N (n - 32) else c.

Fixpoint ascii_upper (s : string) : string :=
  match s with
  | EmptyString => EmptyString
  | String c s' => String (ascii_upper_char c) (ascii_upper s')
  end.

Fixpoint is_ascii (s : string) : bool :=
  match s with
  | EmptyString => true
  | String c s' => (N_of_ascii c <? 128)%N && is_ascii s'
  end.

(** [v.upper()]: only a str has the method. *)
Definition call_upper (upper : string -> string) (v : value) : M value :=
  match v with
  | VStr s => ret (VStr (upper s))
  | _ => raise AttributeError
  end.

(** ** Updates of a dict object

    What a caller can do to a dict it holds: the mutating methods of
    [dict], on the object at location [l]. *)

(** [d[k] = v] *)
Definition dict_setitem (l : loc) (k : string) (v : value) : M unit :=
  d ← read_dict l;
  write_dict l (dict_set k v d).

(** [del d[k]] *)
Definition dict_delitem (l : loc) (k : string) : M unit :=
  d ← read_dict l;
  match dict_get k d with
  | Some _ => write_dict l (dict_del k d)
  | None => raise (KeyError k)
  end.

(** [d.clear()] *)
Definition dict_clear (l : loc) : M unit :=
  read_dict l ;;
  write_dict l [].

(** [d.pop(k)] *)
Definition dict_pop (l : loc) (k : string) : M value :=
  d ← read_dict l;
  match dict_get k d with
  | Some v => write_dict l (dict_del k d) ;; ret v
  | None => raise (KeyError k)
  end.

(** [d.update(items)] for a list of key and value pairs *)
Definition dict_update (l : loc) (items : list (string * value)) : M unit :=
  d ← read_dict l;
  write_dict l (fold_left (fun d kv => dict_set (fst kv) (snd kv) d) items d).

Inductive mutation : Type :=
| SetItem (k : string) (v : value)
| DelItem (k : string)
| Clear
| Pop (k : string)
| Update (items : list (string * value)).

Definition mutate (l : loc) (m : mutation) : M unit :=
  match m with
  | SetItem k v => dict_setitem l k v
  | DelItem k => dict_delitem l k
  | Clear => dict_clear l
  | Pop k => dict_pop l k ;; ret tt
  | Update items => dict_update l items
  end.

(** A caller that applies the mutations one after the other and goes on
    after one that raises (the store is then as the raise left it). *)
Fixpoint mutate_all (l : loc) (ms : list mutation) (σ : store) : store :=
  match ms with
  | [] => σ
  | m :: ms' => mutate_all l ms' (snd (mutate l m σ))
  end.

(** ** utils/format.py *)
Module Format.

(** [f"[OUTPUT] {text}"] *)
Definition format_output (text : string) : string := "[OUTPUT] " ++ text.

(** [f"[ERROR] {message}"] *)
Definition format_error (message : string) : string := "[ERROR] " ++ message.

End Format.

(** ** utils/helpers.py *)
Module Helpers.
Import Format.

Section WithUpper.
Variable upper : string -> string.

Definition process_data (data : value) : M string :=
  t ← truthy data;
  if negb t then
    ret (format_output "No data")
  else
    items ← iterate data;
    processed ← comprehension (call_upper upper) items;
    joined ← str_join ", " processed;
    ret (format_output joined).

End WithUpper.
End Helpers.

(** ** config.py *)
Module Config.

(** The qualified name of the module-level [DEFAULT_CONFIG]. *)
Definition DEFAULT_CONFIG_name : string := "config.DEFAULT_CONFIG".

(** The items of the dict display bound to [DEFAULT_CONFIG]. *)
Definition DEFAULT_CONFIG : dict :=
  dict_display
    [ ("api_url", VStr "https://api.example.com");
      ("timeout", VInt 30);
      ("debug", VBool false) ].

(** What importing the module runs: the dict is built and bound to the
    name (the [def] has no effect on the store). *)
Definition module_body : M unit :=
  d ← new_dict DEFAULT_CONFIG;
  store_global DEFAULT_CONFIG_name d.

Definition load_config : M value :=
  d ← load_global DEFAULT_CONFIG_name;
  call_copy d.

End Config.

(** ** services/api.py *)
Module Api.

(** The argument is not used; the list is built at each call. *)
Definition fetch_data (url : value) : value :=
  let mock_data := VList [VStr "apple"; VStr "banana"; VStr "cherry"] in
  mock_data.

(** A new dict at each call; the payload is not used. *)
Definition post_data (url payload : value) : M value :=
  new_dict (dict_display [ ("status", VStr "ok"); ("url", url) ]).

End Api.

(** ** orphan.py *)
Module Orphan.

Definition standalone_function : string := "I'm all alone".

End Orphan.

(** ** main.py *)
Module Main.
Section WithUpper.
Variable upper : string -> string.

Definition main : M unit :=
  settings ← Config.load_config;
  url ← getitem settings "api_url";
  let data := Api.fetch_data url in
  result ← Helpers.process_data upper data;
  print result.

(** Running [main.py] as a script: the imports run the module bodies
    (only that of [config] touches the store, the others are [def]s
    and imports), then the guard under [__name__] calls [main]. *)
Definition script : M unit :=
  Config.module_body ;;
  main.

(** The file as a whole, run in an interpreter that has imported nothing
    yet, under the module name [name]: [__main__] when the file is run as
    a script, [main] when another file imports it.  The last statement of
    the file is the guard [if __name__ == "__main__": main()]. *)
Definition module_body (name : string) : M unit :=
  Config.module_body ;;
  if String.eqb name "__main__" then main else ret tt.

End WithUpper.
End Main.

(** ** utils/__init__.py

    The package binds the two names it imports and lists them in
    [__all__]. *)
Module Utils.

Definition process_data (upper : string -> string) : value -> M string :=
  Helpers.process_data upper.

Definition format_output : string -> string := Format.format_output.

Definition __all__ : list string := ["process_data"; "format_output"].

End Utils.

(** ** The references between the files

    The import statements of each file and the names each function body
    refers to, as the source has them. *)
Module Graph.

Inductive module_name : Type :=
| main_py | config_py | services_api_py | utils_init_py
| utils_helpers_py | utils_format_py | orphan_py.

#[global] Instance module_name_eq_dec : EqDecision module_name.
Proof. solve_decision. Defined.

Definition all_modules : list module_name :=
  [ main_py; config_py; services_api_py; utils_init_py;
    utils_helpers_py; utils_format_py; orphan_py ].

(** [import m] or [from m import names]. *)
Record import_stmt : Type := mkImport {
  target : module_name;
  names : list string
}.

Definition imports (m : module_name) : list import_stmt :=
  match m with
  | main_py =>
      [ mkImport config_py [];
        mkImport services_api_py ["fetch_data"];
        mkImport utils_helpers_py ["process_data"] ]
  | services_api_py => [ mkImport utils_helpers_py ["process_data"] ]
  | utils_init_py =>
      [ mkImport utils_helpers_py ["process_data"];
        mkImport utils_format_py ["format_output"] ]
  | utils_helpers_py => [ mkImport utils_format_py ["format_output"] ]
  | config_py | utils_format_py | orphan_py => []
  end.

Inductive function_name : Type :=
| f_main | f_load_config | f_fetch_data | f_post_data
| f_process_data | f_format_output | f_format_error
| f_standalone_function.

#[global] Instance function_name_eq_dec : EqDecision function_name.
Proof. solve_decision. Defined.

Definition all_functions : list function_name :=
  [ f_main; f_load_config; f_fetch_data; f_post_data;
    f_process_data; f_format_output; f_format_error;
    f_standalone_function ].

Definition defined_in (f : function_name) : module_name :=
  match f with
  | f_main => main_py
  | f_load_config => config_py
  | f_fetch_data | f_post_data => services_api_py
  | f_process_data => utils_helpers_py
  | f_format_output | f_format_error => utils_format_py
  | f_standalone_function => orphan_py
  end.

Definition function_id (f : function_name) : string :=
  match f with
  | f_main => "main"
  | f_load_config => "load_config"
  | f_fetch_data => "fetch_data"
  | f_post_data => "post_data"
  | f_process_data => "process_data"
  | f_format_output => "format_output"
  | f_format_error => "format_error"
  | f_standalone_function => "standalone_function"
  end.

(** The functions of the project a function body calls. *)
Definition calls (f : function_name) : list function_name :=
  match f with
  | f_main => [ f_load_config; f_fetch_data; f_process_data ]
  | f_process_data => [ f_format_output ]
  | f_load_config | f_fetch_data | f_post_data
  | f_format_output | f_format_error | f_standalone_function => []
  end.

(** An edge of the file graph: [m] imports [m']. *)
Definition depends_on (m m' : module_name) : bool :=
  existsb (fun i => bool_decide (target i = m')) (imports m).

Definition out_degree (m : module_name) : nat :=
  length (filter (fun m' => depends_on m m' = true) all_modules).

Definition in_degree (m : module_name) : nat :=
  length (filter (fun m' => depends_on m' m = true) all_modules).

(** The files that import the name of [f], and the functions that call it. *)
Definition importers (f : function_name) : list module_name :=
  filter
    (fun m => existsb (fun i => existsb (String.eqb (function_id f)) (names i))
                      (imports m) = true)
    all_modules.

Definition callers (f : function_name) : list function_name :=
  filter (fun g => existsb (fun h => bool_decide (h = f)) (calls g) = true)
         all_functions.

End Graph.

(** ** Name resolution and reachability over the references *)
Module Scope.
Import Graph.

(** The functions a file defines, by name. *)
Definition defines (m : module_name) (n : string) : bool :=
  existsb (fun f => bool_decide (defined_in f = m) && String.eqb (function_id f) n)
          all_functions.

(** [f] can be named in the file [m]: it is defined there, or [m] imports
    its name from the file that defines it, or [m] imports that file as a
    module ([import config], then [config.load_config]). *)
Definition in_scope (m : module_name) (f : function_name) : bool :=
  bool_decide (defined_in f = m) ||
  existsb (fun i =>
             bool_decide (target i = defined_in f) &&
             match names i with
             | [] => true
             | ns => existsb (String.eqb (function_id f)) ns
             end)
          (imports m).


Definition calls_function (f g : function_name) : Prop := In g (calls f).


(** The functions a run of [main] can get to. *)
Definition live : list function_name :=
  [ f_main; f_load_config; f_fetch_data; f_process_data; f_format_output ].

End Scope.

(** ** Predicates of the statements *)

(** [DEFAULT_CONFIG] is bound to a dict object whose items are [d]. *)
Definition config_holds (d : dict) (σ : store) : Prop :=
  exists l0 : loc,
    globals σ !! Config.DEFAULT_CONFIG_name = Some (VDict l0) /\
    heap σ !! l0 = Some d.

(** [m] run [n] times in a row. *)
Fixpoint run_times (n : nat) (m : M unit) : M unit :=
  match n with
  | O => ret tt
  | S n' => m ;; run_times n' m
  end.

(** [n] copies of a string, one after the other. *)
Fixpoint str_repeat (n : nat) (s : string) : string :=
  match n with
  | O => ""
  | S n' => s ++ str_repeat n' s
  end.

(** No character of the string is one of [a]..[z]. *)
Fixpoint no_lower (s : string) : bool :=
  match s with
  | EmptyString => true
  | String c s' =>
      negb ((97 <=? N_of_ascii c) && (N_of_ascii c <=? 122))%N && no_lower s'
  end.


(** The module-level name of [config] is bound to a dict object that holds
    the default items: the state [import config] leaves, and the one the
    functions of the project keep. *)
Definition config_intact (σ : store) : Prop :=
  exists l0 : loc,
    globals σ !! Config.DEFAULT_CONFIG_name = Some (VDict l0) /\
    heap σ !! l0 = Some Config.DEFAULT_CONFIG.

(** [σ'] is [σ] but for the dict object at [l]: every other object, the
    module-level names and the output are the same. *)
Definition same_but_at (l : loc) (σ σ' : store) : Prop :=
  (forall l', l' <> l -> heap σ' !! l' = heap σ !! l') /\
  globals σ' = globals σ /\
  stdout σ' = stdout σ.

(** The store [import config] leaves when nothing ran before it. *)
Definition initial_store : store := snd (Config.module_body empty_store).

(** The line [main] prints. *)
Definition fruit_line : string := "[OUTPUT] APPLE, BANANA, CHERRY".

(** * Properties *)

(** ** The monad and the object model *)

Ltac run_py :=
  repeat (progress (cbn [mbind mret M_bind M_ret bind ret raise get_store
                        put_store fst snd heap globals stdout
                        set_heap set_globals set_stdout])
          || unfold mbind, mret, M_bind, M_ret, bind, ret, raise,
                    get_store, put_store).

Lemma bind_run {A B} (m : M A) (k : A -> M B) (σ : store) :
  (m ≫= k) σ =
  match m σ with
  | (Ok a, σ') => k a σ'
  | (Raise e, σ') => (Raise e, σ')
  end.
Proof. reflexivity. Qed.

Lemma ret_run {A} (a : A) (σ : store) : ret a σ = (Ok a, σ).
Proof. reflexivity. Qed.

Lemma bind_ok {A B} (m : M A) (k : A -> M B) (σ σ' : store) (a : A) :
  m σ = (Ok a, σ') -> (m ≫= k) σ = k a σ'.
Proof. intros H. rewrite bind_run, H. reflexivity. Qed.

Lemma fresh_unused (σ : store) : heap σ !! fresh (dom (heap σ)) = None.
Proof. apply not_elem_of_dom, is_fresh. Qed.

Lemma new_dict_run (d : dict) (σ : store) :
  new_dict d σ =
  (Ok (VDict (fresh (dom (heap σ)))),
   set_heap (<[fresh (dom (heap σ)) := d]> (heap σ)) σ).
Proof. reflexivity. Qed.

Lemma read_dict_run (l : loc) (d : dict) (σ : store) :
  heap σ !! l = Some d -> read_dict l σ = (Ok d, σ).
Proof. intros H. unfold read_dict. run_py. rewrite H. reflexivity. Qed.

Lemma read_dict_bind {A} (l : loc) (k : dict -> M A) (σ : store) :
  (read_dict l ≫= k) σ =
  match heap σ !! l with
  | Some d => k d σ
  | None => (Raise SystemError, σ)
  end.
Proof. unfold read_dict. run_py. destruct (heap σ !! l); reflexivity. Qed.

Lemma truthy_store (v : value) (σ : store) : snd (truthy v σ) = σ.
Proof.
  destruct v; cbn [truthy]; try reflexivity.
  rewrite read_dict_bind. destruct (heap σ !! l); reflexivity.
Qed.

Lemma iterate_store (v : value) (σ : store) : snd (iterate v σ) = σ.
Proof.
  destruct v; cbn [iterate]; try reflexivity.
  rewrite read_dict_bind. destruct (heap σ !! l); reflexivity.
Qed.

Lemma strs_of_strs (ss : list string) : strs_of (map VStr ss) = Some ss.
Proof.
  induction ss as [|s ss IH]; cbn [map strs_of]; [reflexivity|].
  rewrite IH. reflexivity.
Qed.

Lemma str_join_strs (sep : string) (ss : list string) (σ : store) :
  str_join sep (map VStr ss) σ = (Ok (String.concat sep ss), σ).
Proof. unfold str_join. rewrite strs_of_strs. reflexivity. Qed.

Lemma prefix_app (s t : string) : String.prefix s (s ++ t) = true.
Proof.
  induction s as [|c s IH]; simpl.
  - destruct t; reflexivity.
  - destruct (ascii_dec c c) as [_|Hne]; [exact IH | contradiction].
Qed.

(** ** utils/format.py *)

Lemma format_output_prefixed (text : string) :
  String.prefix "[OUTPUT] " (Format.format_output text) = true.
Proof. apply prefix_app. Qed.

Lemma format_output_example : Format.format_output "X" = "[OUTPUT] X".
Proof. reflexivity. Qed.

Lemma format_error_example : Format.format_error "X" = "[ERROR] X".
Proof. reflexivity. Qed.

(** ** utils/helpers.py *)

Section ProcessData.
Variable upper : string -> string.

(** What is known of [str.upper]: its value on ASCII text. *)
Hypothesis upper_ascii : forall s, is_ascii s = true -> upper s = ascii_upper s.

Lemma comprehension_upper_strs (ss : list string) (σ : store) :
  comprehension (call_upper upper) (map VStr ss) σ =
  (Ok (map VStr (map upper ss)), σ).
Proof.
  induction ss as [|s ss IH]; cbn [map comprehension]; [reflexivity|].
  rewrite bind_run. cbn [call_upper]. rewrite ret_run.
  rewrite bind_run, IH. reflexivity.
Qed.

(** The branch of a value that is true and whose items are text. *)
Lemma process_data_text_items (data : value) (ss : list string) (σ : store) :
  truthy data σ = (Ok true, σ) ->
  iterate data σ = (Ok (map VStr ss), σ) ->
  Helpers.process_data upper data σ =
  (Ok (Format.format_output (String.concat ", " (map upper ss))), σ).
Proof.
  intros Ht Hi. unfold Helpers.process_data.
  rewrite (bind_ok _ _ _ _ _ Ht). cbn [negb].
  rewrite (bind_ok _ _ _ _ _ Hi).
  rewrite bind_run, comprehension_upper_strs.
  rewrite bind_run, str_join_strs. reflexivity.
Qed.

(** A list that is not empty. *)
Lemma process_data_strs (s : string) (ss : list string) (σ : store) :
  Helpers.process_data upper (VList (map VStr (s :: ss))) σ =
  (Ok (Format.format_output (String.concat ", " (map upper (s :: ss)))), σ).
Proof. apply process_data_text_items; reflexivity. Qed.

(** A str that is not empty is a sequence of text items as well: its
    characters. *)
Lemma process_data_chars (c : ascii) (s : string) (σ : store) :
  Helpers.process_data upper (VStr (String c s)) σ =
  (Ok (Format.format_output (String.concat ", " (map upper (chars (String c s))))), σ).
Proof. apply process_data_text_items; reflexivity. Qed.

(** The branch of a value that is false. *)
Lemma process_data_falsy (data : value) (σ : store) :
  truthy data σ = (Ok false, σ) ->
  Helpers.process_data upper data σ = (Ok "[OUTPUT] No data", σ).
Proof.
  intros H. unfold Helpers.process_data.
  rewrite (bind_ok _ _ _ _ _ H). reflexivity.
Qed.

(** Whatever the argument, a result is built by [format_output]. *)
Lemma process_data_by_format_output (data : value) (σ σ' : store) (out : string) :
  Helpers.process_data upper data σ = (Ok out, σ') ->
  exists text, out = Format.format_output text.
Proof.
  unfold Helpers.process_data. rewrite bind_run.
  destruct (truthy data σ) as [[t|e] σ1]; [|discriminate].
  destruct t; cbn [negb].
  - rewrite bind_run.
    destruct (iterate data σ1) as [[items|e] σ2]; [|discriminate].
    rewrite bind_run.
    destruct (comprehension (call_upper upper) items σ2) as [[processed|e] σ3];
      [|discriminate].
    rewrite bind_run.
    destruct (str_join ", " processed σ3) as [[joined|e] σ4]; [|discriminate].
    intros [= <- _]. eexists. reflexivity.
  - intros [= <- _]. eexists. reflexivity.
Qed.

(** The list [fetch_data] returns. *)
Lemma process_data_fruits (σ : store) :
  Helpers.process_data upper (VList [VStr "apple"; VStr "banana"; VStr "cherry"]) σ =
  (Ok fruit_line, σ).
Proof.
  rewrite (process_data_strs "apple" ["banana"; "cherry"]).
  cbn [map]. rewrite !upper_ascii by reflexivity. reflexivity.
Qed.

(** [process_data] reads the store and writes nothing. *)
Lemma comprehension_upper_store (items : list value) (σ : store) :
  snd (comprehension (call_upper upper) items σ) = σ.
Proof.
  induction items as [|item rest IH]; cbn [comprehension]; [reflexivity|].
  rewrite bind_run. destruct item; cbn [call_upper raise ret snd]; try reflexivity.
  rewrite bind_run.
  destruct (comprehension (call_upper upper) rest σ) as [[ys|e] σ'];
    cbn [snd] in *; exact IH.
Qed.

Lemma process_data_store (data : value) (σ : store) :
  snd (Helpers.process_data upper data σ) = σ.
Proof.
  unfold Helpers.process_data. rewrite bind_run.
  pose proof (truthy_store data σ) as Ht.
  destruct (truthy data σ) as [[t|e] σ1]; cbn [snd] in *; subst σ1; [|reflexivity].
  destruct t; cbn [negb]; [|reflexivity].
  rewrite bind_run. pose proof (iterate_store data σ) as Hi.
  destruct (iterate data σ) as [[items|e] σ1]; cbn [snd] in *; subst σ1; [|reflexivity].
  rewrite bind_run. pose proof (comprehension_upper_store items σ) as Hc.
  destruct (comprehension (call_upper upper) items σ) as [[processed|e] σ1];
    cbn [snd] in *; subst σ1; [|reflexivity].
  rewrite bind_run. unfold str_join.
  destruct (strs_of processed); reflexivity.
Qed.

Lemma process_data_intact (data : value) (σ : store) :
  config_intact σ -> config_intact (snd (Helpers.process_data upper data σ)).
Proof. rewrite process_data_store. intros H; exact H. Qed.

(** C2. For every list of text items that is not empty, [process_data]
    returns [format_output] of the items upper-cased, in the order of
    the list, and joined with a comma and a space; for the three fruit
    names it returns "[OUTPUT] APPLE, BANANA, CHERRY".  No exception is
    raised and the store is left as it is. *)
Theorem process_data_nonempty (data : list string) (σ : store) :
  data <> [] ->
  Helpers.process_data upper (VList (map VStr data)) σ =
    (Ok (Format.format_output (String.concat ", " (map upper data))), σ) /\
  Helpers.process_data upper (VList [VStr "apple"; VStr "banana"; VStr "cherry"]) σ =
    (Ok "[OUTPUT] APPLE, BANANA, CHERRY", σ).
Proof.
  intros Hne. split.
  - destruct data as [|s ss]; [contradiction|]. apply process_data_strs.
  - apply process_data_fruits.
Qed.

(** C3. For the empty list and for [None], [process_data] returns the
    message "[OUTPUT] No data", which is [format_output("No data")],
    and raises nothing. *)
Theorem process_data_empty (σ : store) :
  Helpers.process_data upper (VList []) σ = (Ok "[OUTPUT] No data", σ) /\
  Helpers.process_data upper VNone σ = (Ok "[OUTPUT] No data", σ) /\
  Format.format_output "No data" = "[OUTPUT] No data".
Proof. split; [reflexivity | split; reflexivity]. Qed.

(** C9. A string [process_data] returns starts with "[OUTPUT] ": this
    holds of every call that returns, whatever the argument, and a call
    on [None] or on a list of text items (empty or not) does return. *)
Theorem process_data_prefixed :
  (forall (data : value) (σ σ' : store) (out : string),
      Helpers.process_data upper data σ = (Ok out, σ') ->
      String.prefix "[OUTPUT] " out = true) /\
  (forall (data : value) (σ : store),
      data = VNone \/ (exists ss, data = VList (map VStr ss)) ->
      exists out,
        Helpers.process_data upper data σ = (Ok out, σ) /\
        String.prefix "[OUTPUT] " out = true).
Proof.
  split.
  - intros data σ σ' out H.
    destruct (process_data_by_format_output _ _ _ _ H) as [text ->].
    apply format_output_prefixed.
  - intros data σ [-> | [ss ->]].
    + eexists. split; [apply process_data_falsy; reflexivity | reflexivity].
    + destruct ss as [|s ss].
      * eexists. split; [apply process_data_falsy; reflexivity | reflexivity].
      * eexists. split; [apply process_data_strs | apply format_output_prefixed].
Qed.

(** The other values that are false take the same branch, and an item
    that is not a str ends the call with the exception of the missing
    method. *)
Lemma process_data_other_falsy (σ : store) :
  Helpers.process_data upper (VStr "") σ = (Ok "[OUTPUT] No data", σ) /\
  Helpers.process_data upper (VInt 0) σ = (Ok "[OUTPUT] No data", σ) /\
  Helpers.process_data upper (VBool false) σ = (Ok "[OUTPUT] No data", σ).
Proof. split; [reflexivity | split; reflexivity]. Qed.

Lemma process_data_non_text_item (s : string) (σ : store) :
  Helpers.process_data upper (VList [VStr s; VInt 1]) σ = (Raise AttributeError, σ).
Proof. reflexivity. Qed.

End ProcessData.

(** ** services/api.py *)

(** C4. Whatever the argument, [fetch_data] returns the list of the three
    fruit names.  It is a function of its argument alone: it reads and
    writes no store and raises nothing. *)
Theorem fetch_data_constant (url : value) :
  Api.fetch_data url = VList [VStr "apple"; VStr "banana"; VStr "cherry"].
Proof. reflexivity. Qed.

Lemma post_data_run (url payload : value) (σ : store) :
  Api.post_data url payload σ =
  (Ok (VDict (fresh (dom (heap σ)))),
   set_heap (<[fresh (dom (heap σ)) := [("status", VStr "ok"); ("url", url)]]> (heap σ)) σ).
Proof. reflexivity. Qed.

Lemma post_data_frame (url payload : value) (σ : store) :
  exists (l : loc) (σ' : store),
    Api.post_data url payload σ = (Ok (VDict l), σ') /\
    heap σ !! l = None /\
    same_but_at l σ σ'.
Proof.
  exists (fresh (dom (heap σ))). eexists.
  split; [apply post_data_run|].
  split; [apply fresh_unused|].
  split; [|split; reflexivity].
  intros l' Hne. cbn [heap set_heap]. apply lookup_insert_ne. congruence.
Qed.

(** C7. For every url and payload, [post_data] returns a new dict object
    whose items are [status: "ok"] and [url: url], the url being the
    argument itself; nothing is raised whatever the payload, and every
    object that existed, the module-level names and the output are left
    as they were. *)
Theorem post_data_echoes_url (url payload : value) (σ : store) :
  exists (l : loc) (σ' : store),
    Api.post_data url payload σ = (Ok (VDict l), σ') /\
    heap σ !! l = None /\
    heap σ' !! l = Some [("status", VStr "ok"); ("url", url)] /\
    same_but_at l σ σ'.
Proof.
  exists (fresh (dom (heap σ))). eexists.
  split; [apply post_data_run|].
  split; [apply fresh_unused|].
  split; [apply lookup_insert_eq|].
  split; [|split; reflexivity].
  intros l' Hne. cbn [heap set_heap]. apply lookup_insert_ne. congruence.
Qed.

Lemma post_data_intact (url payload : value) (σ : store) :
  config_intact σ -> config_intact (snd (Api.post_data url payload σ)).
Proof.
  intros Hint.
  destruct (post_data_frame url payload σ) as (l & σ' & Hrun & Hnew & Hsame).
  rewrite Hrun. cbn [snd].
  destruct Hint as (l0 & Hg & Hh). destruct Hsame as (Hheap & Hglob & _).
  exists l0. rewrite Hglob. split; [exact Hg|].
  rewrite Hheap; [exact Hh | congruence].
Qed.

(** C10. The payload has no influence on [post_data]: for one url and one
    store, two payloads give the same result and the same store. *)
Theorem post_data_ignores_payload (url p1 p2 : value) (σ : store) :
  Api.post_data url p1 σ = Api.post_data url p2 σ.
Proof. reflexivity. Qed.

(** ** orphan.py *)

(** C8. [standalone_function] returns "I'm all alone"; no file imports
    [orphan.py] and it imports none (in-degree and out-degree 0 in the
    graph of the files); no file imports the name of the function, no
    function calls it, and it calls none. *)
Theorem standalone_function_isolated :
  Orphan.standalone_function = "I'm all alone" /\
  Graph.defined_in Graph.f_standalone_function = Graph.orphan_py /\
  Graph.in_degree Graph.orphan_py = 0%nat /\
  Graph.out_degree Graph.orphan_py = 0%nat /\
  Graph.importers Graph.f_standalone_function = [] /\
  Graph.callers Graph.f_standalone_function = [] /\
  Graph.calls Graph.f_standalone_function = [].
Proof. repeat (split; [reflexivity|]). reflexivity. Qed.

(** X20. [orphan.py] is the only file with no edge at all: every other
    file imports a file or is imported by one. *)
Lemma orphan_only_isolated (m : Graph.module_name) :
  Graph.in_degree m = 0%nat /\ Graph.out_degree m = 0%nat <-> m = Graph.orphan_py.
Proof.
  split.
  - destruct m; cbv; intros [H1 H2]; congruence.
  - intros ->. split; reflexivity.
Qed.

(** ** Updates of a dict object change that object alone *)

Lemma same_but_at_refl (l : loc) (σ : store) : same_but_at l σ σ.
Proof. repeat split. Qed.

Lemma same_but_at_trans (l : loc) (σ1 σ2 σ3 : store) :
  same_but_at l σ1 σ2 -> same_but_at l σ2 σ3 -> same_but_at l σ1 σ3.
Proof.
  intros (Hh & Hg & Ho) (Hh' & Hg' & Ho'). split; [|split].
  - intros l' Hne. rewrite Hh', Hh by exact Hne. reflexivity.
  - congruence.
  - congruence.
Qed.

Lemma write_dict_frame (l : loc) (d : dict) (σ : store) :
  same_but_at l σ (snd (write_dict l d σ)) /\
  is_Some (heap (snd (write_dict l d σ)) !! l).
Proof.
  unfold write_dict. run_py. split; [split; [|split; reflexivity]|].
  - intros l' Hne. apply lookup_insert_ne. congruence.
  - rewrite lookup_insert_eq. eexists. reflexivity.
Qed.

(** A method that reads the object and then writes it, or raises. *)
Lemma read_then_write_frame {A} (l : loc) (k : dict -> M A) (σ : store) :
  (forall d, heap σ !! l = Some d ->
     (exists e, k d σ = (Raise e, σ)) \/
     (exists d' a, k d σ = (Ok a, snd (write_dict l d' σ)))) ->
  same_but_at l σ (snd ((read_dict l ≫= k) σ)) /\
  (is_Some (heap σ !! l) -> is_Some (heap (snd ((read_dict l ≫= k) σ)) !! l)).
Proof.
  intros Hk. rewrite read_dict_bind.
  destruct (heap σ !! l) as [d|] eqn:Hl.
  - destruct (Hk d eq_refl) as [[e H] | (d' & a & H)]; rewrite H; cbn [snd].
    + split; [apply same_but_at_refl | intros _; rewrite ?Hl; eexists; reflexivity].
    + split; [apply write_dict_frame | intros _; apply write_dict_frame].
  - cbn [snd]. split; [apply same_but_at_refl | intros H; rewrite ?Hl; exact H].
Qed.

Lemma snd_ignore {A B} (m : M A) (b : B) (σ : store) :
  snd ((m ;; ret b) σ) = snd (m σ).
Proof. rewrite bind_run. destruct (m σ) as [[a|e] σ']; reflexivity. Qed.

Lemma mutate_frame (l : loc) (m : mutation) (σ : store) :
  same_but_at l σ (snd (mutate l m σ)) /\
  (is_Some (heap σ !! l) -> is_Some (heap (snd (mutate l m σ)) !! l)).
Proof.
  destruct m as [k v | k | | k | items]; cbn [mutate].
  - unfold dict_setitem. apply read_then_write_frame.
    intros d _. right. exists (dict_set k v d), tt. reflexivity.
  - unfold dict_delitem. apply read_then_write_frame.
    intros d _. destruct (dict_get k d).
    + right. exists (dict_del k d), tt. reflexivity.
    + left. eexists. reflexivity.
  - unfold dict_clear. apply read_then_write_frame.
    intros d _. right. exists [], tt. reflexivity.
  - rewrite snd_ignore. unfold dict_pop. apply read_then_write_frame.
    intros d _. destruct (dict_get k d) as [v|].
    + right. exists (dict_del k d), v. reflexivity.
    + left. eexists. reflexivity.
  - unfold dict_update. apply read_then_write_frame.
    intros d _. right. eexists _, tt. reflexivity.
Qed.

Lemma mutate_all_frame (l : loc) (ms : list mutation) (σ : store) :
  same_but_at l σ (mutate_all l ms σ) /\
  (is_Some (heap σ !! l) -> is_Some (heap (mutate_all l ms σ) !! l)).
Proof.
  revert σ. induction ms as [|m ms IH]; intros σ; cbn [mutate_all].
  - split; [apply same_but_at_refl | intros H; exact H].
  - destruct (mutate_frame l m σ) as [Hf Hs].
    destruct (IH (snd (mutate l m σ))) as [Hf' Hs'].
    split; [eapply same_but_at_trans; eassumption | intros H; apply Hs', Hs, H].
Qed.

(** ** config.py *)

Lemma DEFAULT_CONFIG_items :
  Config.DEFAULT_CONFIG =
  [ ("api_url", VStr "https://api.example.com");
    ("timeout", VInt 30);
    ("debug", VBool false) ].
Proof. reflexivity. Qed.

(** Importing [config] gives a store where the default is in place. *)
Lemma module_body_intact (σ : store) :
  fst (Config.module_body σ) = Ok tt /\
  config_intact (snd (Config.module_body σ)).
Proof.
  split; [reflexivity|].
  exists (fresh (dom (heap σ))).
  split; [apply lookup_insert_eq | apply lookup_insert_eq].
Qed.

Lemma initial_store_intact : config_intact initial_store.
Proof. apply module_body_intact. Qed.

(** An update of another object keeps the default in place. *)
Lemma config_intact_frame (l : loc) (σ σ' : store) :
  config_intact σ -> heap σ !! l = None \/ globals σ !! Config.DEFAULT_CONFIG_name <> Some (VDict l) ->
  same_but_at l σ σ' -> config_intact σ'.
Proof.
  intros (l0 & Hg & Hh) Hl (Hheap & Hglob & _).
  exists l0. rewrite Hglob. split; [exact Hg|].
  rewrite Hheap; [exact Hh|].
  intros ->. destruct Hl as [Hl | Hl]; congruence.
Qed.

Lemma load_config_run (σ : store) (l0 : loc) (d : dict) :
  globals σ !! Config.DEFAULT_CONFIG_name = Some (VDict l0) ->
  heap σ !! l0 = Some d ->
  Config.load_config σ =
  (Ok (VDict (fresh (dom (heap σ)))),
   set_heap (<[fresh (dom (heap σ)) := d]> (heap σ)) σ).
Proof.
  intros Hg Hh. unfold Config.load_config, load_global.
  rewrite !bind_run. unfold get_store. cbv iota beta. rewrite Hg, ret_run.
  cbn [call_copy]. rewrite read_dict_bind, Hh. apply new_dict_run.
Qed.

(** A call of [load_config] adds one object and changes nothing else. *)
Lemma load_config_spec (σ : store) :
  config_intact σ ->
  exists (l : loc) (σ' : store),
    Config.load_config σ = (Ok (VDict l), σ') /\
    heap σ !! l = None /\
    heap σ' !! l = Some Config.DEFAULT_CONFIG /\
    same_but_at l σ σ' /\
    config_intact σ'.
Proof.
  intros Hint. pose proof Hint as (l0 & Hg & Hh).
  exists (fresh (dom (heap σ))). eexists.
  split; [apply (load_config_run σ l0 _ Hg Hh)|].
  assert (Hsame : same_but_at (fresh (dom (heap σ))) σ
            (set_heap (<[fresh (dom (heap σ)) := Config.DEFAULT_CONFIG]> (heap σ)) σ)).
  { split; [|split; reflexivity].
    intros l' Hne. cbn [heap set_heap]. apply lookup_insert_ne. congruence. }
  split; [apply fresh_unused|].
  split; [apply lookup_insert_eq|].
  split; [exact Hsame|].
  eapply config_intact_frame; [exact Hint | left; apply fresh_unused | exact Hsame].
Qed.

(** The items of the dict a call returns, as [main] reads them. *)
Lemma load_config_getitem (σ : store) :
  config_intact σ ->
  exists (l : loc) (σ' : store),
    Config.load_config σ = (Ok (VDict l), σ') /\
    getitem (VDict l) "api_url" σ' = (Ok (VStr "https://api.example.com"), σ') /\
    getitem (VDict l) "timeout" σ' = (Ok (VInt 30), σ') /\
    getitem (VDict l) "debug" σ' = (Ok (VBool false), σ') /\
    stdout σ' = stdout σ /\
    config_intact σ'.
Proof.
  intros Hint.
  destruct (load_config_spec σ Hint) as (l & σ' & Hrun & _ & Hl & Hsame & Hint').
  exists l, σ'. split; [exact Hrun|].
  unfold getitem. rewrite !read_dict_bind, Hl.
  repeat (split; [reflexivity|]). split; [apply Hsame | exact Hint'].
Qed.

(** C5. In a store where the default is in place (as [import config]
    leaves it, and as the functions of the project keep it), every call
    of [load_config] raises nothing and returns a dict whose items are
    [api_url: "https://api.example.com"], [timeout: 30] and
    [debug: False]: the three keys are there, with a str, an int and a
    bool. *)
Theorem load_config_default (σ : store) :
  config_intact σ ->
  exists (l : loc) (σ' : store),
    Config.load_config σ = (Ok (VDict l), σ') /\
    heap σ' !! l =
      Some [ ("api_url", VStr "https://api.example.com");
             ("timeout", VInt 30);
             ("debug", VBool false) ] /\
    getitem (VDict l) "api_url" σ' = (Ok (VStr "https://api.example.com"), σ') /\
    getitem (VDict l) "timeout" σ' = (Ok (VInt 30), σ') /\
    getitem (VDict l) "debug" σ' = (Ok (VBool false), σ') /\
    config_intact σ'.
Proof.
  intros Hint.
  destruct (load_config_spec σ Hint) as (l & σ' & Hrun & _ & Hl & _ & Hint').
  exists l, σ'. rewrite DEFAULT_CONFIG_items in Hl.
  split; [exact Hrun|]. split; [exact Hl|].
  unfold getitem. rewrite !read_dict_bind, Hl.
  repeat (split; [reflexivity|]). exact Hint'.
Qed.

(** C6. [load_config] hands out a copy of its own: after a call, whatever
    the updates made to the dict it returned (items set, deleted, popped,
    the dict cleared or updated, in any number), the next call raises
    nothing and returns another dict object, with the default items; the
    default is still in place after it, so the same holds of the calls
    that follow. *)
Theorem load_config_fresh_copy (σ : store) (ms : list mutation) :
  config_intact σ ->
  exists (l : loc) (σ1 : store),
    Config.load_config σ = (Ok (VDict l), σ1) /\
    exists (l' : loc) (σ3 : store),
      Config.load_config (mutate_all l ms σ1) = (Ok (VDict l'), σ3) /\
      l' <> l /\
      heap σ3 !! l' =
        Some [ ("api_url", VStr "https://api.example.com");
               ("timeout", VInt 30);
               ("debug", VBool false) ] /\
      config_intact σ3.
Proof.
  intros Hint.
  destruct (load_config_spec σ Hint) as (l & σ1 & Hrun & Hnew & Hl & Hsame & Hint1).
  exists l, σ1. split; [exact Hrun|].
  destruct (mutate_all_frame l ms σ1) as [Hmut Halive].
  assert (Hint2 : config_intact (mutate_all l ms σ1)).
  { eapply config_intact_frame; [exact Hint1 | right | exact Hmut].
    destruct Hsame as (_ & Hglob & _). rewrite Hglob.
    destruct Hint as (l0 & Hg & Hh). rewrite Hg. intros [= ->]. congruence. }
  destruct (load_config_spec _ Hint2) as (l' & σ3 & Hrun' & Hnew' & Hl' & _ & Hint3).
  exists l', σ3. split; [exact Hrun'|].
  split.
  - intros ->. destruct Halive as [d Hd]; [eexists; exact Hl|]. congruence.
  - split; [rewrite <- DEFAULT_CONFIG_items; exact Hl' | exact Hint3].
Qed.

(** Were the dict under the module-level name handed out as it is, an
    update would show in the next call: the copy is what C6 rests on. *)
Example update_of_the_default_is_seen :
  let σ := snd (dict_setitem 1%positive "debug" (VBool true) initial_store) in
  globals initial_store !! Config.DEFAULT_CONFIG_name = Some (VDict 1%positive) /\
  exists l σ', Config.load_config σ = (Ok (VDict l), σ') /\
    getitem (VDict l) "debug" σ' = (Ok (VBool true), σ').
Proof.
  split; [reflexivity|]. eexists _, _. split; vm_compute; reflexivity.
Qed.

(** ** main.py *)

Section EntryPoint.
Variable upper : string -> string.
Hypothesis upper_ascii : forall s, is_ascii s = true -> upper s = ascii_upper s.

(** The value [main] passes to [print]: the three calls in a row. *)
Lemma pipeline_run (σ : store) :
  config_intact σ ->
  exists σ1,
    (settings ← Config.load_config;
     url ← getitem settings "api_url";
     Helpers.process_data upper (Api.fetch_data url)) σ = (Ok fruit_line, σ1) /\
    stdout σ1 = stdout σ /\
    config_intact σ1.
Proof.
  intros Hint.
  destruct (load_config_getitem σ Hint) as (l & σ1 & Hrun & Hurl & _ & _ & Hout & Hint1).
  exists σ1. rewrite (bind_ok _ _ _ _ _ Hrun), (bind_ok _ _ _ _ _ Hurl).
  split; [|split; [exact Hout | exact Hint1]].
  unfold Api.fetch_data. apply (process_data_fruits upper upper_ascii).
Qed.

Lemma main_run (σ : store) :
  config_intact σ ->
  exists σ',
    Main.main upper σ = (Ok tt, σ') /\
    stdout σ' = stdout σ ++ fruit_line ++ newline /\
    config_intact σ'.
Proof.
  intros Hint. unfold Main.main.
  destruct (load_config_getitem σ Hint) as (l & σ1 & Hrun & Hurl & _ & _ & Hout & Hint1).
  rewrite (bind_ok _ _ _ _ _ Hrun), (bind_ok _ _ _ _ _ Hurl).
  cbv zeta. unfold Api.fetch_data.
  rewrite (bind_ok _ _ _ _ _ (process_data_fruits upper upper_ascii σ1)).
  eexists. split; [reflexivity|].
  cbn [print stdout set_stdout]. rewrite Hout.
  split; [reflexivity | exact Hint1].
Qed.

(** C1. Run as a script from an empty store, [main.py] raises nothing and
    leaves on standard output the line "[OUTPUT] APPLE, BANANA, CHERRY"
    with its line feed and nothing else; and in every store where the
    default is in place, [process_data(fetch_data(load_config()["api_url"]))]
    is that line. *)
Theorem main_prints_fruit_line :
  (exists σ',
      Main.script upper empty_store = (Ok tt, σ') /\
      stdout σ' = "[OUTPUT] APPLE, BANANA, CHERRY" ++ newline) /\
  (forall σ, config_intact σ ->
     exists σ',
       (settings ← Config.load_config;
        url ← getitem settings "api_url";
        Helpers.process_data upper (Api.fetch_data url)) σ =
       (Ok "[OUTPUT] APPLE, BANANA, CHERRY", σ')).
Proof.
  split.
  - unfold Main.script. rewrite bind_run.
    destruct (module_body_intact empty_store) as [Hok Hint].
    destruct (Config.module_body empty_store) as [r σ0] eqn:Hbody.
    cbn [fst snd] in Hok, Hint. subst r.
    destruct (main_run σ0 Hint) as (σ' & Hmain & Hout & _).
    exists σ'. split; [exact Hmain|].
    rewrite Hout.
    replace (stdout σ0) with ""; [reflexivity|].
    change σ0 with (snd (Ok tt, σ0)). rewrite <- Hbody. reflexivity.
  - intros σ Hint. destruct (pipeline_run σ Hint) as (σ1 & Hrun & _).
    exists σ1. exact Hrun.
Qed.

End EntryPoint.

(** * Further properties of the code *)

(** ** utils/format.py: the two tags *)

Lemma format_output_inj (a b : string) :
  Format.format_output a = Format.format_output b -> a = b.
Proof.
  cbv beta iota fix delta [Format.format_output String.append].
  intros H. congruence.
Qed.

(** X1. The text can be read back from a formatted string: each of
    [format_output] and [format_error] gives equal results only on equal
    texts, and no result of one is a result of the other. *)
Theorem format_tags_unambiguous (a b : string) :
  (Format.format_output a = Format.format_output b <-> a = b) /\
  (Format.format_error a = Format.format_error b <-> a = b) /\
  Format.format_output a <> Format.format_error b.
Proof.
  cbv beta iota fix delta [Format.format_output Format.format_error String.append].
  split; [|split].
  - split; [intros H; congruence | intros ->; reflexivity].
  - split; [intros H; congruence | intros ->; reflexivity].
  - intros H. discriminate H.
Qed.

(** ** ASCII upper-casing *)

Lemma ascii_upper_char_no_lower (c : ascii) :
  negb ((97 <=? N_of_ascii (ascii_upper_char c)) &&
        (N_of_ascii (ascii_upper_char c) <=? 122))%N = true.
Proof. destruct c as [[] [] [] [] [] [] [] []]; reflexivity. Qed.

Lemma ascii_upper_char_idem (c : ascii) :
  ascii_upper_char (ascii_upper_char c) = ascii_upper_char c.
Proof. destruct c as [[] [] [] [] [] [] [] []]; reflexivity. Qed.

Lemma ascii_upper_char_ascii (c : ascii) :
  (N_of_ascii (ascii_upper_char c) <? 128)%N = (N_of_ascii c <? 128)%N.
Proof. destruct c as [[] [] [] [] [] [] [] []]; reflexivity. Qed.

Lemma ascii_upper_no_lower (s : string) : no_lower (ascii_upper s) = true.
Proof.
  induction s as [|c s IH]; cbn [ascii_upper no_lower]; [reflexivity|].
  rewrite ascii_upper_char_no_lower, IH. reflexivity.
Qed.

Lemma ascii_upper_idem (s : string) : ascii_upper (ascii_upper s) = ascii_upper s.
Proof.
  induction s as [|c s IH]; cbn [ascii_upper]; [reflexivity|].
  rewrite ascii_upper_char_idem, IH. reflexivity.
Qed.

Lemma ascii_upper_is_ascii (s : string) : is_ascii (ascii_upper s) = is_ascii s.
Proof.
  induction s as [|c s IH]; cbn [ascii_upper is_ascii]; [reflexivity|].
  rewrite ascii_upper_char_ascii, IH. reflexivity.
Qed.

Lemma ascii_upper_app (a b : string) :
  ascii_upper (a ++ b) = ascii_upper a ++ ascii_upper b.
Proof.
  induction a as [|c a IH];
    cbv beta iota fix delta [String.append] in *; cbn [ascii_upper];
    [reflexivity|].
  rewrite IH. reflexivity.
Qed.

Lemma ascii_upper_concat (ss : list string) :
  ascii_upper (String.concat ", " ss) = String.concat ", " (map ascii_upper ss).
Proof.
  induction ss as [|s ss IH]; [reflexivity|].
  destruct ss as [|s' ss]; [reflexivity|].
  change (String.concat ", " (s :: s' :: ss))
    with (s ++ ", " ++ String.concat ", " (s' :: ss)).
  change (String.concat ", " (map ascii_upper (s :: s' :: ss)))
    with (ascii_upper s ++ ", " ++ String.concat ", " (map ascii_upper (s' :: ss))).
  rewrite !ascii_upper_app, IH. reflexivity.
Qed.


(** ** utils/helpers.py: errors, other arguments, upper-casing *)

Section ProcessDataMore.
Variable upper : string -> string.
Hypothesis upper_ascii : forall s, is_ascii s = true -> upper s = ascii_upper s.

Lemma map_upper_ascii (ss : list string) :
  forallb is_ascii ss = true -> map upper ss = map ascii_upper ss.
Proof.
  induction ss as [|s ss IH]; cbn [forallb map]; [reflexivity|].
  intros [Hs Hss]%andb_prop. rewrite (upper_ascii s Hs), (IH Hss). reflexivity.
Qed.

(** X2. [process_data] writes nothing: whatever the argument, and whether
    the call returns or raises, the store after it (dict objects,
    module-level names, standard output) is the store before it. *)
Theorem process_data_leaves_store (data : value) (σ : store) :
  exists r : result string, Helpers.process_data upper data σ = (r, σ).
Proof.
  exists (fst (Helpers.process_data upper data σ)).
  rewrite <- (process_data_store upper data σ) at 3.
  destruct (Helpers.process_data upper data σ); reflexivity.
Qed.


(** X4. A scalar argument: [0], [False] and the empty str take the branch
    of the empty input and give the "No data" message, while an int other
    than [0] and [True] raise [TypeError], for they cannot be iterated. *)
Theorem process_data_scalar (σ : store) :
  Helpers.process_data upper (VInt 0) σ = (Ok "[OUTPUT] No data", σ) /\
  Helpers.process_data upper (VBool false) σ = (Ok "[OUTPUT] No data", σ) /\
  Helpers.process_data upper (VStr "") σ = (Ok "[OUTPUT] No data", σ) /\
  Helpers.process_data upper (VBool true) σ = (Raise TypeError, σ) /\
  (forall n : Z, n <> 0 ->
     Helpers.process_data upper (VInt n) σ = (Raise TypeError, σ)).
Proof.
  repeat (split; [reflexivity|]).
  intros n Hn. unfold Helpers.process_data. rewrite bind_run. cbn [truthy].
  rewrite ret_run. apply Z.eqb_neq in Hn. rewrite Hn. reflexivity.
Qed.


(** X6. On ASCII text, upper-casing the items and then joining them is
    upper-casing the joined text: the result is [format_output] of the
    upper-cased [", ".join(data)]. *)
Theorem process_data_upper_of_join (ss : list string) (σ : store) :
  ss <> [] ->
  forallb is_ascii ss = true ->
  Helpers.process_data upper (VList (map VStr ss)) σ =
  (Ok (Format.format_output (ascii_upper (String.concat ", " ss))), σ).
Proof.
  intros Hne Hascii. destruct ss as [|s ss]; [contradiction|].
  rewrite process_data_strs, (map_upper_ascii _ Hascii), ascii_upper_concat.
  reflexivity.
Qed.

(** X7. On ASCII text that is not empty, the text of the result has no
    lower-case letter, so the result is never the "No data" message of the
    empty input. *)
Theorem process_data_not_no_data (ss : list string) (σ : store) :
  ss <> [] ->
  forallb is_ascii ss = true ->
  exists text : string,
    Helpers.process_data upper (VList (map VStr ss)) σ =
      (Ok (Format.format_output text), σ) /\
    no_lower text = true /\
    Format.format_output text <> "[OUTPUT] No data".
Proof.
  intros Hne Hascii. destruct ss as [|s ss]; [contradiction|].
  exists (ascii_upper (String.concat ", " (s :: ss))).
  split; [|split].
  - rewrite process_data_strs, (map_upper_ascii _ Hascii), ascii_upper_concat.
    reflexivity.
  - apply ascii_upper_no_lower.
  - intros H. apply (format_output_inj _ "No data") in H.
    pose proof (ascii_upper_no_lower (String.concat ", " (s :: ss))) as Hlow.
    rewrite H in Hlow. discriminate Hlow.
Qed.

(** X8. On ASCII text, processing items that are upper-cased already gives
    what processing the items gives. *)
Theorem process_data_idempotent (ss : list string) (σ : store) :
  forallb is_ascii ss = true ->
  Helpers.process_data upper (VList (map VStr (map upper ss))) σ =
  Helpers.process_data upper (VList (map VStr ss)) σ.
Proof.
  intros Hascii. destruct ss as [|s ss]; [reflexivity|].
  assert (Hup : forallb is_ascii (map upper (s :: ss)) = true).
  { rewrite (map_upper_ascii _ Hascii). clear -Hascii.
    induction (s :: ss) as [|x xs IH]; [reflexivity|].
    cbn [forallb map] in *. apply andb_prop in Hascii as [Hx Hxs].
    rewrite ascii_upper_is_ascii, Hx, (IH Hxs). reflexivity. }
  change (map upper (s :: ss)) with (upper s :: map upper ss) at 1.
  rewrite !process_data_strs.
  change (upper s :: map upper ss) with (map upper (s :: ss)).
  rewrite (map_upper_ascii _ Hup), (map_upper_ascii _ Hascii).
  rewrite List.map_map, (List.map_ext _ _ ascii_upper_idem). reflexivity.
Qed.

End ProcessDataMore.

(** ** config.py: what a copy is a copy of *)

Lemma config_holds_frame (d : dict) (l : loc) (σ σ' : store) :
  config_holds d σ -> heap σ !! l = None -> same_but_at l σ σ' ->
  config_holds d σ'.
Proof.
  intros (l0 & Hg & Hh) Hl (Hheap & Hglob & _).
  exists l0. rewrite Hglob. split; [exact Hg|].
  rewrite Hheap; [exact Hh | congruence].
Qed.

Lemma load_config_copy (d : dict) (σ : store) :
  config_holds d σ ->
  exists (l : loc) (σ' : store),
    Config.load_config σ = (Ok (VDict l), σ') /\
    heap σ !! l = None /\
    heap σ' !! l = Some d /\
    same_but_at l σ σ' /\
    config_holds d σ'.
Proof.
  intros Hd. pose proof Hd as (l0 & Hg & Hh).
  exists (fresh (dom (heap σ))). eexists.
  split; [apply (load_config_run σ l0 _ Hg Hh)|].
  assert (Hsame : same_but_at (fresh (dom (heap σ))) σ
            (set_heap (<[fresh (dom (heap σ)) := d]> (heap σ)) σ)).
  { split; [|split; reflexivity].
    intros l' Hne. cbn [heap set_heap]. apply lookup_insert_ne. congruence. }
  split; [apply fresh_unused|].
  split; [apply lookup_insert_eq|].
  split; [exact Hsame|].
  eapply config_holds_frame; [exact Hd | apply fresh_unused | exact Hsame].
Qed.

(** X9. [load_config] copies what the dict under [DEFAULT_CONFIG] holds
    when it is called, whatever that is: the dict it returns is a new
    object with those items, so an update made to [DEFAULT_CONFIG] itself
    shows in the calls that follow; no object that existed is changed,
    nor is the binding of the name. *)
Theorem load_config_copies_current (d : dict) (σ : store) :
  config_holds d σ ->
  exists (l : loc) (σ' : store),
    Config.load_config σ = (Ok (VDict l), σ') /\
    heap σ !! l = None /\
    heap σ' !! l = Some d /\
    same_but_at l σ σ' /\
    config_holds d σ'.
Proof. apply load_config_copy. Qed.

(** X10. Two dicts returned by two calls are two objects, and neither
    follows the other: after any updates of one of them the other still
    has the default items. *)
Theorem load_config_copies_independent (σ : store) (ms : list mutation) :
  config_intact σ ->
  exists (l1 l2 : loc) (σ1 σ2 : store),
    Config.load_config σ = (Ok (VDict l1), σ1) /\
    Config.load_config σ1 = (Ok (VDict l2), σ2) /\
    l1 <> l2 /\
    heap (mutate_all l1 ms σ2) !! l2 = Some Config.DEFAULT_CONFIG /\
    heap (mutate_all l2 ms σ2) !! l1 = Some Config.DEFAULT_CONFIG.
Proof.
  intros Hint.
  destruct (load_config_spec σ Hint) as (l1 & σ1 & Hrun1 & _ & Hl1 & _ & Hint1).
  destruct (load_config_spec σ1 Hint1) as (l2 & σ2 & Hrun2 & Hnew2 & Hl2 & Hsame2 & _).
  assert (Hne : l1 <> l2) by congruence.
  exists l1, l2, σ1, σ2.
  split; [exact Hrun1|]. split; [exact Hrun2|]. split; [exact Hne|].
  destruct (mutate_all_frame l1 ms σ2) as [(Hh1 & _) _].
  destruct (mutate_all_frame l2 ms σ2) as [(Hh2 & _) _].
  split.
  - rewrite Hh1 by congruence. exact Hl2.
  - rewrite Hh2 by congruence.
    destruct Hsame2 as (Hh & _). rewrite Hh by congruence. exact Hl1.
Qed.

(** ** services/api.py: reading the result of [post_data] *)

(** X11. The dict [post_data] returns has the keys [status] and [url] and
    no other: [url] reads the argument back, [status] reads "ok", and any
    other key raises [KeyError]. *)
Theorem post_data_fields (url payload : value) (k : string) (σ : store) :
  exists (l : loc) (σ' : store),
    Api.post_data url payload σ = (Ok (VDict l), σ') /\
    getitem (VDict l) "url" σ' = (Ok url, σ') /\
    getitem (VDict l) "status" σ' = (Ok (VStr "ok"), σ') /\
    (k <> "status" -> k <> "url" ->
     getitem (VDict l) k σ' = (Raise (KeyError k), σ')).
Proof.
  exists (fresh (dom (heap σ))). eexists.
  split; [apply post_data_run|].
  unfold getitem. rewrite !read_dict_bind. cbn [heap set_heap].
  rewrite lookup_insert_eq.
  split; [reflexivity|]. split; [reflexivity|].
  intros Hs Hu. cbn [dict_get].
  apply String.eqb_neq in Hs, Hu. rewrite Hs, Hu. reflexivity.
Qed.

(** ** main.py: what a run needs and what it leaves *)

Lemma str_app_assoc (a b c : string) : (a ++ b) ++ c = a ++ (b ++ c).
Proof.
  induction a as [|x a IH];
    cbv beta iota fix delta [String.append] in *; [reflexivity|].
  rewrite IH. reflexivity.
Qed.

Section MainMore.
Variable upper : string -> string.
Hypothesis upper_ascii : forall s, is_ascii s = true -> upper s = ascii_upper s.

Lemma main_run_holds (d : dict) (v : value) (σ : store) :
  config_holds d σ ->
  dict_get "api_url" d = Some v ->
  exists (l : loc) (σ' : store),
    Main.main upper σ = (Ok tt, σ') /\
    stdout σ' = stdout σ ++ fruit_line ++ newline /\
    globals σ' = globals σ /\
    heap σ !! l = None /\
    heap σ' !! l = Some d /\
    (forall l', l' <> l -> heap σ' !! l' = heap σ !! l') /\
    config_holds d σ'.
Proof.
  intros Hd Hv. unfold Main.main.
  destruct (load_config_copy d σ Hd) as (l & σ1 & Hrun & Hnew & Hl & Hsame & Hd1).
  assert (Hurl : getitem (VDict l) "api_url" σ1 = (Ok v, σ1)).
  { unfold getitem. rewrite read_dict_bind, Hl, Hv. reflexivity. }
  rewrite (bind_ok _ _ _ _ _ Hrun), (bind_ok _ _ _ _ _ Hurl).
  cbv zeta. unfold Api.fetch_data.
  rewrite (bind_ok _ _ _ _ _ (process_data_fruits upper upper_ascii σ1)).
  destruct Hsame as (Hheap & Hglob & Hout).
  exists l. eexists. split; [reflexivity|].
  cbn [print stdout globals heap set_stdout]. rewrite Hout.
  split; [reflexivity|]. split; [exact Hglob|]. split; [exact Hnew|].
  split; [exact Hl|]. split; [exact Hheap|].
  destruct Hd1 as (l0 & Hg & Hh). exists l0. split; [exact Hg | exact Hh].
Qed.

(** X12. Of the configuration, [main] needs the key [api_url] and nothing
    else: whatever the items under [DEFAULT_CONFIG] and whatever the value
    under [api_url], a run returns normally and appends the one line
    "[OUTPUT] APPLE, BANANA, CHERRY" to the output.  Its only other effect
    is the copy [load_config] made: the module-level names and every
    object that existed are as before. *)
Theorem main_needs_only_api_url (d : dict) (v : value) (σ : store) :
  config_holds d σ ->
  dict_get "api_url" d = Some v ->
  exists (l : loc) (σ' : store),
    Main.main upper σ = (Ok tt, σ') /\
    stdout σ' = stdout σ ++ "[OUTPUT] APPLE, BANANA, CHERRY" ++ newline /\
    globals σ' = globals σ /\
    heap σ !! l = None /\
    heap σ' !! l = Some d /\
    (forall l', l' <> l -> heap σ' !! l' = heap σ !! l') /\
    config_holds d σ'.
Proof. apply main_run_holds. Qed.

(** X13. When the dict under [DEFAULT_CONFIG] has no key [api_url], [main]
    raises [KeyError] for that key and prints nothing. *)
Theorem main_missing_api_url (d : dict) (σ : store) :
  config_holds d σ ->
  dict_get "api_url" d = None ->
  exists σ' : store,
    Main.main upper σ = (Raise (KeyError "api_url"), σ') /\
    stdout σ' = stdout σ /\
    config_holds d σ'.
Proof.
  intros Hd Hv. unfold Main.main.
  destruct (load_config_copy d σ Hd) as (l & σ1 & Hrun & _ & Hl & Hsame & Hd1).
  rewrite (bind_ok _ _ _ _ _ Hrun).
  exists σ1. split; [|split; [apply Hsame | exact Hd1]].
  rewrite bind_run. unfold getitem. rewrite read_dict_bind, Hl, Hv. reflexivity.
Qed.

(** X14. [main] can be run again and again: [n] runs in a row all return
    normally and append [n] times the same line, and the default is in
    place after them. *)
Theorem main_repeated (n : nat) (σ : store) :
  config_intact σ ->
  exists σ' : store,
    run_times n (Main.main upper) σ = (Ok tt, σ') /\
    stdout σ' = stdout σ ++ str_repeat n ("[OUTPUT] APPLE, BANANA, CHERRY" ++ newline) /\
    config_intact σ'.
Proof.
  revert σ. induction n as [|n IH]; intros σ Hint; cbn [run_times str_repeat].
  - exists σ. split; [reflexivity|]. split; [|exact Hint].
    generalize (stdout σ). intros s. induction s as [|c s IHs]; [reflexivity|].
    cbv beta iota fix delta [String.append] in *. rewrite <- IHs. reflexivity.
  - destruct (main_run upper upper_ascii σ Hint) as (σ1 & Hrun & Hout & Hint1).
    destruct (IH σ1 Hint1) as (σ' & Hrun' & Hout' & Hint').
    exists σ'. rewrite (bind_ok _ _ _ _ _ Hrun).
    split; [exact Hrun'|]. split; [|exact Hint'].
    rewrite Hout', Hout. unfold fruit_line. rewrite !str_app_assoc. reflexivity.
Qed.

(** The functions of the project keep the default in place. *)
Lemma main_intact (σ : store) :
  config_intact σ -> config_intact (snd (Main.main upper σ)).
Proof.
  intros Hint. unfold Main.main.
  destruct (load_config_getitem σ Hint) as (l & σ1 & Hrun & Hurl & _ & _ & _ & Hint1).
  rewrite (bind_ok _ _ _ _ _ Hrun), (bind_ok _ _ _ _ _ Hurl).
  cbv zeta. rewrite bind_run.
  pose proof (process_data_store upper (Api.fetch_data (VStr "https://api.example.com")) σ1) as Hst.
  destruct (Helpers.process_data upper _ σ1) as [[out|e] σ2];
    cbn [snd] in *; subst σ2; [|exact Hint1].
  destruct Hint1 as (l0 & Hg & Hh). exists l0. split; [exact Hg | exact Hh].
Qed.

(** X15. The default is in place after [import config], and each function
    of the project keeps it in place, whether it returns or raises:
    [load_config], [post_data], [process_data] and [main]. *)
Theorem default_config_invariant :
  (forall σ, config_intact (snd (Config.module_body σ))) /\
  (forall σ, config_intact σ -> config_intact (snd (Config.load_config σ))) /\
  (forall σ url payload,
     config_intact σ -> config_intact (snd (Api.post_data url payload σ))) /\
  (forall σ data,
     config_intact σ -> config_intact (snd (Helpers.process_data upper data σ))) /\
  (forall σ, config_intact σ -> config_intact (snd (Main.main upper σ))).
Proof.
  split; [intros σ; apply module_body_intact|].
  split.
  { intros σ Hint.
    destruct (load_config_spec σ Hint) as (l & σ' & Hrun & _ & _ & _ & Hint').
    rewrite Hrun. exact Hint'. }
  split; [intros σ url payload; apply post_data_intact|].
  split; [intros σ data; apply process_data_intact|].
  intros σ. apply main_intact.
Qed.


End MainMore.

(** ** The references between the files: scope, cycles, dead code *)




(** X18. Every name resolves.  A name imported from a file is the name of
    a function that file defines; a function called in a body is defined
    in the file of the caller or imported there, by name or through its
    module; and every name in the [__all__] of [utils] is a name the
    package imports. *)
Theorem names_resolve :
  (forall m i n,
     In i (Graph.imports m) -> In n (Graph.names i) ->
     Scope.defines (Graph.target i) n = true) /\
  (forall f g,
     In g (Graph.calls f) -> Scope.in_scope (Graph.defined_in f) g = true) /\
  (forall n,
     In n Utils.__all__ ->
     exists i, In i (Graph.imports Graph.utils_init_py) /\ In n (Graph.names i)).
Proof.
  split; [|split].
  - intros m i n Hi Hn.
    destruct m; cbn [Graph.imports In] in Hi;
      repeat (destruct Hi as [<- | Hi]; [|]); try contradiction;
      cbn [Graph.names In] in Hn;
      repeat (destruct Hn as [<- | Hn]; [reflexivity|]); contradiction.
  - intros f g Hg.
    destruct f; cbn [Graph.calls In] in Hg;
      repeat (destruct Hg as [<- | Hg]; [reflexivity|]); contradiction.
  - intros n Hn. cbn [Utils.__all__ In] in Hn.
    destruct Hn as [<- | [<- | []]].
    + eexists. split; [left; reflexivity | left; reflexivity].
    + eexists. split; [right; left; reflexivity | left; reflexivity].
Qed.

Lemma live_closed (f g : Graph.function_name) :
  In f Scope.live -> Scope.calls_function f g -> In g Scope.live.
Proof.
  unfold Scope.calls_function.
  destruct f; cbn [Graph.calls In]; intros Hf Hg;
    repeat (destruct Hg as [<- | Hg]; [cbv; tauto|]); contradiction.
Qed.

(** X19. The functions a run of [main] can reach through calls are
    [main], [load_config], [fetch_data], [process_data] and
    [format_output], and no other: [post_data], [format_error] and
    [standalone_function] are never called from [main]. *)
Theorem reachable_from_main (f : Graph.function_name) :
  (rtc Scope.calls_function Graph.f_main f <-> In f Scope.live) /\
  ~ rtc Scope.calls_function Graph.f_main Graph.f_post_data /\
  ~ rtc Scope.calls_function Graph.f_main Graph.f_format_error /\
  ~ rtc Scope.calls_function Graph.f_main Graph.f_standalone_function.
Proof.
  assert (Hreach : forall g, rtc Scope.calls_function Graph.f_main g -> In g Scope.live).
  { apply (rtc_ind_r (fun g => In g Scope.live)).
    - left. reflexivity.
    - intros g h _ Hstep IH. exact (live_closed g h IH Hstep). }
  assert (Hdead : forall g, ~ In g Scope.live -> ~ rtc Scope.calls_function Graph.f_main g).
  { intros g Hg H. apply Hg, Hreach, H. }
  split; [split; [apply Hreach|]|].
  - intros Hf.
    assert (Hproc : rtc Scope.calls_function Graph.f_main Graph.f_process_data).
    { apply rtc_once. cbv. tauto. }
    destruct f; cbv in Hf;
      try (exfalso; intuition discriminate).
    + apply rtc_refl.
    + apply rtc_once. cbv. tauto.
    + apply rtc_once. cbv. tauto.
    + exact Hproc.
    + eapply rtc_r; [exact Hproc|]. cbv. tauto.
  - repeat split; apply Hdead; cbv; intuition discriminate.
Qed.

(** * The statements at concrete inputs *)

(** [ascii_upper] stands for [str.upper] here: what is assumed of [upper]
    holds of it by definition. *)

Lemma main_prints_fruit_line_witness :
  fst (Main.script ascii_upper empty_store) = Ok tt /\
  stdout (snd (Main.script ascii_upper empty_store)) =
    "[OUTPUT] APPLE, BANANA, CHERRY" ++ newline /\
  config_intact initial_store /\
  fst ((settings ← Config.load_config;
        url ← getitem settings "api_url";
        Helpers.process_data ascii_upper (Api.fetch_data url)) initial_store) =
    Ok "[OUTPUT] APPLE, BANANA, CHERRY".
Proof.
  destruct (main_prints_fruit_line ascii_upper (fun s _ => eq_refl)) as [(σ' & Hrun & Hout) Hpipe].
  destruct (Hpipe initial_store initial_store_intact) as (σ1 & Hrun1).
  rewrite Hrun, Hrun1. cbn [fst snd].
  split; [reflexivity|]. split; [exact Hout|]. split; [exact initial_store_intact | reflexivity].
Defined.

Lemma process_data_nonempty_witness :
  ["kiwi"; "fig"] <> [] /\
  Helpers.process_data ascii_upper (VList [VStr "kiwi"; VStr "fig"]) empty_store =
    (Ok "[OUTPUT] KIWI, FIG", empty_store) /\
  Helpers.process_data ascii_upper (VList [VStr "apple"; VStr "banana"; VStr "cherry"])
      empty_store =
    (Ok "[OUTPUT] APPLE, BANANA, CHERRY", empty_store).
Proof.
  assert (Hne : ["kiwi"; "fig"] <> []) by discriminate.
  split; [exact Hne|].
  exact (process_data_nonempty ascii_upper (fun s _ => eq_refl) ["kiwi"; "fig"] empty_store Hne).
Defined.

Lemma process_data_prefixed_witness :
  Helpers.process_data ascii_upper (VStr "ab") empty_store = (Ok "[OUTPUT] A, B", empty_store) /\
  String.prefix "[OUTPUT] " "[OUTPUT] A, B" = true /\
  exists out,
    Helpers.process_data ascii_upper (VList (map VStr ["pear"])) initial_store =
      (Ok out, initial_store) /\
    String.prefix "[OUTPUT] " out = true.
Proof.
  destruct (process_data_prefixed ascii_upper) as [Hany Hdom].
  assert (Hrun : Helpers.process_data ascii_upper (VStr "ab") empty_store =
                 (Ok "[OUTPUT] A, B", empty_store)) by reflexivity.
  split; [exact Hrun|].
  split; [exact (Hany _ _ _ _ Hrun)|].
  apply Hdom. right. exists ["pear"]. reflexivity.
Defined.

Lemma load_config_default_witness :
  config_intact initial_store /\
  exists (l : loc) (σ' : store),
    Config.load_config initial_store = (Ok (VDict l), σ') /\
    heap σ' !! l =
      Some [ ("api_url", VStr "https://api.example.com");
             ("timeout", VInt 30);
             ("debug", VBool false) ] /\
    getitem (VDict l) "api_url" σ' = (Ok (VStr "https://api.example.com"), σ') /\
    getitem (VDict l) "timeout" σ' = (Ok (VInt 30), σ') /\
    getitem (VDict l) "debug" σ' = (Ok (VBool false), σ') /\
    config_intact σ'.
Proof.
  split; [exact initial_store_intact|].
  exact (load_config_default initial_store initial_store_intact).
Defined.

Lemma load_config_fresh_copy_witness :
  config_intact initial_store /\
  exists (l : loc) (σ1 : store),
    Config.load_config initial_store = (Ok (VDict l), σ1) /\
    exists (l' : loc) (σ3 : store),
      Config.load_config
        (mutate_all l [SetItem "debug" (VBool true); DelItem "timeout"; Clear] σ1) =
        (Ok (VDict l'), σ3) /\
      l' <> l /\
      heap σ3 !! l' =
        Some [ ("api_url", VStr "https://api.example.com");
               ("timeout", VInt 30);
               ("debug", VBool false) ] /\
      config_intact σ3.
Proof.
  split; [exact initial_store_intact|].
  exact (load_config_fresh_copy initial_store
           [SetItem "debug" (VBool true); DelItem "timeout"; Clear]
           initial_store_intact).
Defined.


Lemma process_data_upper_of_join_witness :
  Helpers.process_data ascii_upper (VList [VStr "kiwi"; VStr "fig 2"]) empty_store =
  (Ok "[OUTPUT] KIWI, FIG 2", empty_store).
Proof.
  apply (process_data_upper_of_join ascii_upper (fun s _ => eq_refl)
           ["kiwi"; "fig 2"] empty_store).
  - discriminate.
  - reflexivity.
Defined.

Lemma process_data_not_no_data_witness :
  exists text : string,
    Helpers.process_data ascii_upper (VList [VStr "No data"]) empty_store =
      (Ok (Format.format_output text), empty_store) /\
    no_lower text = true /\
    Format.format_output text <> "[OUTPUT] No data".
Proof.
  apply (process_data_not_no_data ascii_upper (fun s _ => eq_refl)
           ["No data"] empty_store).
  - discriminate.
  - reflexivity.
Defined.

Lemma process_data_idempotent_witness :
  Helpers.process_data ascii_upper (VList [VStr "KIWI"; VStr "FIG"]) empty_store =
  Helpers.process_data ascii_upper (VList [VStr "kiwi"; VStr "fig"]) empty_store.
Proof.
  apply (process_data_idempotent ascii_upper (fun s _ => eq_refl)
           ["kiwi"; "fig"] empty_store).
  reflexivity.
Defined.

(** The store after [config.DEFAULT_CONFIG["debug"] = True]. *)
Lemma load_config_copies_current_witness :
  let d := [ ("api_url", VStr "https://api.example.com");
             ("timeout", VInt 30);
             ("debug", VBool true) ] in
  let σ := snd (dict_setitem 1%positive "debug" (VBool true) initial_store) in
  exists (l : loc) (σ' : store),
    Config.load_config σ = (Ok (VDict l), σ') /\
    heap σ !! l = None /\
    heap σ' !! l = Some d /\
    same_but_at l σ σ' /\
    config_holds d σ'.
Proof.
  cbv zeta. apply load_config_copies_current.
  exists 1%positive. split; reflexivity.
Defined.

Lemma load_config_copies_independent_witness :
  exists (l1 l2 : loc) (σ1 σ2 : store),
    Config.load_config initial_store = (Ok (VDict l1), σ1) /\
    Config.load_config σ1 = (Ok (VDict l2), σ2) /\
    l1 <> l2 /\
    heap (mutate_all l1 [Clear; SetItem "debug" (VBool true)] σ2) !! l2 =
      Some Config.DEFAULT_CONFIG /\
    heap (mutate_all l2 [Clear; SetItem "debug" (VBool true)] σ2) !! l1 =
      Some Config.DEFAULT_CONFIG.
Proof.
  exact (load_config_copies_independent initial_store
           [Clear; SetItem "debug" (VBool true)] initial_store_intact).
Defined.

(** The store after [config.DEFAULT_CONFIG.clear()] and
    [config.DEFAULT_CONFIG["api_url"] = None]. *)
Lemma main_needs_only_api_url_witness :
  let σ := mutate_all 1%positive [Clear; SetItem "api_url" VNone] initial_store in
  exists (l : loc) (σ' : store),
    Main.main ascii_upper σ = (Ok tt, σ') /\
    stdout σ' = stdout σ ++ "[OUTPUT] APPLE, BANANA, CHERRY" ++ newline /\
    globals σ' = globals σ /\
    heap σ !! l = None /\
    heap σ' !! l = Some [("api_url", VNone)] /\
    (forall l', l' <> l -> heap σ' !! l' = heap σ !! l') /\
    config_holds [("api_url", VNone)] σ'.
Proof.
  cbv zeta.
  apply (main_needs_only_api_url ascii_upper (fun s _ => eq_refl)
           [("api_url", VNone)] VNone).
  - exists 1%positive. split; reflexivity.
  - reflexivity.
Defined.

(** The store after [del config.DEFAULT_CONFIG["api_url"]]. *)
Lemma main_missing_api_url_witness :
  let d := [ ("timeout", VInt 30); ("debug", VBool false) ] in
  let σ := mutate_all 1%positive [DelItem "api_url"] initial_store in
  exists σ' : store,
    Main.main ascii_upper σ = (Raise (KeyError "api_url"), σ') /\
    stdout σ' = stdout σ /\
    config_holds d σ'.
Proof.
  cbv zeta. apply (main_missing_api_url ascii_upper).
  - exists 1%positive. split; reflexivity.
  - reflexivity.
Defined.

Lemma main_repeated_witness :
  exists σ' : store,
    run_times 3 (Main.main ascii_upper) initial_store = (Ok tt, σ') /\
    stdout σ' =
      stdout initial_store ++
      str_repeat 3 ("[OUTPUT] APPLE, BANANA, CHERRY" ++ newline) /\
    config_intact σ'.
Proof.
  exact (main_repeated ascii_upper (fun s _ => eq_refl) 3 initial_store
           initial_store_intact).
Defined.

